(** * The Chalice GraphQL view of strawberry: [strawberry/chalice/views.py]

    A shallow embedding of [GraphQLView] (request classification, operation
    extraction, execution and the error responder) and the properties of its
    HTTP behaviour. *)

From Stdlib Require Import ZArith String List Bool.
From stdpp Require Import base option list gmap strings sorting.

Set Warnings "-register-all".
Local Open Scope string_scope.
Local Open Scope Z_scope.

(** ** Python values *)

(** The values that travel through the view: what [json.loads] can return and
    what a [Response] body can hold.  [None] is [JNull], a [str] is [JStr], a
    [dict] is [JObj] with its items in insertion order.  Numbers are kept as
    integers: the view never computes with them. *)
Inductive json : Type :=
  | JNull
  | JBool (b : bool)
  | JNum (n : Z)
  | JStr (s : string)
  | JArr (items : list json)
  | JObj (items : list (string * json)).

(** A [dict] with [str] keys, as its list of items. *)
Definition dict : Type := list (string * json).

(** [key in d] and [d[key]]: the first item under [key]. *)
Fixpoint dict_get (key : string) (d : dict) : option json :=
  match d with
  | [] => None
  | (k, v) :: rest => if String.eqb k key then Some v else dict_get key rest
  end.

(** [isinstance(data, dict)], with the value seen as a [dict] when it is one. *)
Definition as_dict (data : json) : option dict :=
  match data with
  | JObj items => Some items
  | _ => None
  end.

(** [d[key] = value]: the item under [key] is replaced where it stands, a new
    key goes last. *)
Fixpoint dict_set (key : string) (value : json) (d : dict) : dict :=
  match d with
  | [] => [(key, value)]
  | (k, v) :: rest =>
      if String.eqb k key then (k, value) :: rest
      else (k, v) :: dict_set key value rest
  end.

(** [needle in haystack] on [str]: [needle] occurs as a substring. *)
Fixpoint str_in (needle haystack : string) : bool :=
  String.prefix needle haystack
  || match haystack with
     | EmptyString => false
     | String _ rest => str_in needle rest
     end.

(** ** Exceptions *)

(** The exceptions the view names in an [except] clause, and any other. *)
Inductive exn : Type :=
  | BadRequestError
  | MissingQueryError
  | OtherError (name : string).

(** The outcome of a call or of an attribute access that can raise. *)
Inductive except (A : Type) : Type :=
  | Ok (a : A)
  | Raise (e : exn).
Arguments Ok {A} a.
Arguments Raise {A} e.

(** The [message] that [MissingQueryError.__init__] passes to [Exception]
    ([strawberry/exceptions/__init__.py]). *)
Definition MissingQueryError_message : string :=
  let quote := String (Ascii.ascii_of_nat 34) EmptyString in
  "Request data is missing a " ++ quote ++ "query" ++ quote ++ " value".

(** ** The framework's request and response ([chalice.app]) *)

(** [MultiDict]: the query parameters, each key with the values given for it. *)
Definition MultiDict : Type := list (string * list string).

Module Request.

(** What the view reads of a [chalice.app.Request].  [headers] is the
    framework's case-insensitive mapping, held under lower-case keys;
    [query_params] is [None] when the URL has no query string; [json_body]
    is the outcome of reading the property of that name, which raises
    [BadRequestError] when the raw body is not JSON. *)
Record t : Type := mk {
  method : string;
  headers : gmap string string;
  query_params : option MultiDict;
  json_body : except json
}.

(** [request.headers.get(name, fallback)] *)
Definition headers_get (request : t) (name fallback : string) : string :=
  default fallback (headers request !! name).

End Request.

Module Response.

Record t : Type := mk {
  body : json;
  headers : gmap string string;
  status_code : Z
}.

(** [Response(body, headers=None, status_code=200)]: an omitted [headers]
    is the empty mapping and an omitted [status_code] is 200. *)
Definition init (body : json) (headers : option (gmap string string))
    (status_code : option Z) : t :=
  mk body (default ∅ headers) (default 200 status_code).

End Response.

(** The truth value of [request.query_params]: [None] and the empty mapping
    are false. *)
Definition truthy (params : option MultiDict) : bool :=
  match params with
  | None | Some [] => false
  | Some (_ :: _) => true
  end.

(** The test of line 98 of [views.py]:
    ["application/json" in request.headers.get("content-type", "")]. *)
Definition has_json_content_type (request : Request.t) : bool :=
  str_in "application/json" (Request.headers_get request "content-type" "").

(** The [accept] header as the view reads it: [headers.get("accept", "")]. *)
Definition accept_header (request : Request.t) : string :=
  Request.headers_get request "accept" "".

(** ** What the view imports from the rest of strawberry *)

(** [GraphQLRequestData]: the operation read from the request data. *)
Record GraphQLRequestData : Type := {
  query : json;
  variables : json;
  operation_name : json
}.

(** A GraphQL error of the engine: its message and, when known, where it
    arose. *)
Record GraphQLError : Type := {
  message : string;
  locations : option json;
  path : option json
}.

(** [ExecutionResult]: what the execution engine hands back. *)
Record ExecutionResult : Type := {
  data : json;
  errors : list GraphQLError;
  extensions : option json
}.

(** [BaseSchema]: the engine, through its one entry point
    [execute_sync(query, variable_values, context_value, operation_name,
    root_value)].  It hands back an [ExecutionResult], or raises. *)
Record BaseSchema : Type := {
  execute_sync :
    json -> json -> Request.t -> json -> json -> except ExecutionResult
}.

(** [JSONDumpsParams]: the keyword arguments given to the encoder class. *)
Definition JSONDumpsParams : Type := dict.

(** A [json.JSONEncoder] class: built from its keyword arguments, it encodes
    a value as text; building it or encoding with it may raise. *)
Definition JSONEncoder : Type := JSONDumpsParams -> json -> except string.

Module strawberry.

(** The functions [views.py] imports from [strawberry.http] and
    [strawberry.utils.graphiql], whose bodies are outside this development:
    the view is verified against any implementation of them.
    [parse_query_params], [parse_request_data] and [process_result] may
    raise. *)
Class lib : Type := {
  parse_query_params : MultiDict -> except dict;
  parse_request_data : dict -> except GraphQLRequestData;
  process_result : ExecutionResult -> except json;
  get_graphiql_html : bool -> string
}.

End strawberry.

(** ** Control flow of a method body *)

(** How a block of statements ends: it falls through with the value it
    bound, or hits a [return], or an exception escapes. *)
Inductive flow (A : Type) : Type :=
  | Continue (a : A)
  | Return (r : Response.t)
  | Throw (e : exn).
Arguments Continue {A} a.
Arguments Return {A} r.
Arguments Throw {A} e.

(** ** [class GraphQLView] *)

Module GraphQLView.

Record t : Type := mk {
  graphiql : bool;
  _schema : BaseSchema;
  json_encoder : JSONEncoder;
  json_dumps_params : JSONDumpsParams
}.

(** [__init__(schema, render_graphiql=True, json_encoder=json.JSONEncoder,
    json_dumps_params=None)]; [default_encoder] stands for
    [json.JSONEncoder]. *)
Definition init (default_encoder : JSONEncoder) (schema : BaseSchema)
    (render_graphiql : option bool) (json_encoder : option JSONEncoder)
    (json_dumps_params : option JSONDumpsParams) : t :=
  mk (default true render_graphiql) schema
     (default default_encoder json_encoder)
     (default [] json_dumps_params).

Section methods.
Context `{strawberry.lib}.

(** [render_graphiql()] *)
Definition render_graphiql : string :=
  strawberry.get_graphiql_html false.

(** [should_render_graphiql(graphiql, request)] *)
Definition should_render_graphiql (graphiql : bool) (request : Request.t)
    : bool :=
  if negb graphiql then false
  else
    existsb
      (fun supported_header =>
         str_in supported_header (Request.headers_get request "accept" ""))
      ["text/html"; "*/*"].

(** [error_response(message, error_code, http_status_code, headers=None)] *)
Definition error_response (message error_code : string)
    (http_status_code : Z) (headers : option (gmap string string))
    : Response.t :=
  let body := JObj [("Code", JStr error_code); ("Message", JStr message)] in
  Response.init body headers (Some http_status_code).

(** [self.process_result(request, result)] *)
Definition process_result (self : t) (request : Request.t)
    (result : ExecutionResult) : except json :=
  strawberry.process_result result.

(** The methods [execute_request] accepts. *)
Definition allowed_methods : gset string := {[ "POST"; "GET" ]}.

(** Lines 97-133 of [execute_request]: the [if]/[elif] chain that either
    binds [data] and falls through, or returns a response. *)
Definition select_data (self : t) (request : Request.t) : flow dict :=
  let content_type := Request.headers_get request "content-type" "" in
  if str_in "application/json" content_type then
    match Request.json_body request with
    | Ok data =>
        match as_dict data with
        | None =>
            Return
              (error_response
                 "Provide a valid graphql query in the body of your request"
                 "BadRequestError" 400 None)
        | Some data => Continue data
        end
    | Raise BadRequestError =>
        Return
          (error_response
             "Provide a valid graphql query in the body of your request"
             "BadRequestError" 400 None)
    | Raise e => Throw e
    end
  else if String.eqb (Request.method request) "GET"
          && truthy (Request.query_params request) then
    match strawberry.parse_query_params
            (default [] (Request.query_params request)) with
    | Ok data => Continue data
    | Raise e => Throw e
    end
  else if String.eqb (Request.method request) "GET"
          && should_render_graphiql (graphiql self) request then
    Return
      (Response.init (JStr render_graphiql)
         (Some {[ "content-type" := "text/html" ]}) (Some 200))
  else
    Return
      (error_response "Unsupported Media Type" "UnsupportedMediaType" 415
         None).

(** Lines 135-156 of [execute_request]: extraction of the operation from
    [data], execution, and the response that carries the encoded result.
    The engine gets the request as its context; whatever
    [parse_query_params] did to the query parameters is between that
    function and the engine, and both are arbitrary here.  The calls of
    lines 144-154 (the engine, [process_result], the encoder) stand outside
    any [try]: what they raise escapes. *)
Definition execute_data (self : t) (request : Request.t) (data : dict)
    : except Response.t :=
  match strawberry.parse_request_data data with
  | Raise MissingQueryError =>
      Ok
        (error_response "No GraphQL query found in the request"
           "BadRequestError" 400 None)
  | Raise e => Raise e
  | Ok request_data =>
      match
        execute_sync (_schema self) (query request_data)
          (variables request_data) request (operation_name request_data)
          JNull
      with
      | Raise e => Raise e
      | Ok result =>
          match process_result self request result with
          | Raise e => Raise e
          | Ok http_result =>
              match
                json_encoder self (json_dumps_params self) http_result
              with
              | Raise e => Raise e
              | Ok body => Ok (Response.init (JStr body) None None)
              end
          end
      end
  end.

(** [execute_request(request)] *)
Definition execute_request (self : t) (request : Request.t)
    : except Response.t :=
  if negb (bool_decide (Request.method request ∈ allowed_methods)) then
    Ok
      (error_response
         "Unsupported method, must be of request type POST or GET"
         "MethodNotAllowedError" 405 None)
  else
    match select_data self request with
    | Continue data => execute_data self request data
    | Return response => Ok response
    | Throw e => Raise e
    end.

End methods.

End GraphQLView.

(** ** The functions of [strawberry.http], after the specification *)

Module spec_http.

(** Modelled from the spec: [strawberry.http.parse_request_data], whose body
    is not among the sources.  Section 4.2: it extracts [query], [variables]
    and [operationName] from the data source, and fails with
    [MissingQueryError] when no [query] key is present or it is empty;
    section 3: the variables default to the empty mapping and the operation
    name is optional. *)
Definition parse_request_data (data : dict) : except GraphQLRequestData :=
  match dict_get "query" data with
  | None => Raise MissingQueryError
  | Some (JStr EmptyString) => Raise MissingQueryError
  | Some text =>
      Ok {| query := text;
            variables := default (JObj []) (dict_get "variables" data);
            operation_name := default JNull (dict_get "operationName" data) |}
  end.

(** Modelled from the spec: [strawberry.http.parse_query_params], whose body
    is not among the sources.  Section 4.2: sourced from query parameters,
    [variables] is parsed from a JSON-encoded string and the other keys are
    taken as they are (for a key given several times, the value the mapping
    yields, its last).  [json_loads] is the JSON decoder, [None] where it
    raises. *)
Definition parse_query_params (json_loads : string -> option json)
    (params : MultiDict) : except dict :=
  let items :=
    map (fun item : string * list string =>
           (fst item, JStr (List.last (snd item) EmptyString))) params in
  match dict_get "variables" items with
  | Some (JStr text) =>
      match json_loads text with
      | Some value => Ok (dict_set "variables" value items)
      | None => Raise (OtherError "JSONDecodeError")
      end
  | _ => Ok items
  end.

(** A GraphQL error in the response: its message, with locations and path
    where the error has them (section 6). *)
Definition formatted (error : GraphQLError) : json :=
  JObj
    ([("message", JStr (message error))]
     ++ from_option (fun l => [("locations", l)]) [] (locations error)
     ++ from_option (fun p => [("path", p)]) [] (path error)).

(** Modelled from the spec: [strawberry.http.process_result], whose body is
    not among the sources.  Section 4.4: an object with the key [data],
    always present, and the key [errors], present only when there are
    errors. *)
Definition process_result (result : ExecutionResult) : json :=
  JObj
    ([("data", data result)]
     ++ match errors result with
        | [] => []
        | _ :: _ => [("errors", JArr (map formatted (errors result)))]
        end).

(** The imports of the view, as the specification describes them, over a JSON
    decoder and the exploration page of the static-asset provider (section 6:
    [getExplorationPage], fixed by the configuration). *)
Definition lib (json_loads : string -> option json)
    (get_graphiql_html : bool -> string) : strawberry.lib :=
  {| strawberry.parse_query_params := parse_query_params json_loads;
     strawberry.parse_request_data := parse_request_data;
     strawberry.process_result := fun result => Ok (process_result result);
     strawberry.get_graphiql_html := get_graphiql_html |}.

End spec_http.

(** ** The classifier as the specification words it *)

Module Classifier.

Section branches.
Context `{strawberry.lib}.

(** A branch of the classifier: when it applies and what it does then. *)
Definition branch : Type := (Request.t -> bool) * (Request.t -> flow dict).

(** The first branch of the list that applies decides; [otherwise] is the
    catch-all. *)
Definition first_applicable (branches : list branch)
    (otherwise : Request.t -> flow dict) (request : Request.t) : flow dict :=
  match find (fun b : branch => fst b request) branches with
  | Some b => snd b request
  | None => otherwise request
  end.

Definition is_get (request : Request.t) : bool :=
  String.eqb (Request.method request) "GET".

Definition bad_json_body : Response.t :=
  GraphQLView.error_response
    "Provide a valid graphql query in the body of your request"
    "BadRequestError" 400 None.

(** [UseJsonBody]: the content type is JSON; the body is the data source when
    it parses as an object, and a protocol error when parsing fails or yields
    something else. *)
Definition UseJsonBody : branch :=
  (has_json_content_type,
   fun request =>
     match Request.json_body request with
     | Ok (JObj items) => Continue items
     | Ok _ | Raise BadRequestError => Return bad_json_body
     | Raise e => Throw e
     end).

(** [UseQueryParams]: a GET with query parameters (and no JSON content
    type); the parameters are the data source. *)
Definition UseQueryParams : branch :=
  (fun request =>
     is_get request && truthy (Request.query_params request)
     && negb (has_json_content_type request),
   fun request =>
     match strawberry.parse_query_params
             (default [] (Request.query_params request)) with
     | Ok items => Continue items
     | Raise e => Throw e
     end).

(** [RenderExploration]: a GET without query parameters, with exploration
    enabled and an [accept] header that contains [text/html] or [*/*]. *)
Definition RenderExploration (self : GraphQLView.t) : branch :=
  (fun request =>
     is_get request && negb (truthy (Request.query_params request))
     && GraphQLView.graphiql self
     && (str_in "text/html" (accept_header request)
         || str_in "*/*" (accept_header request)),
   fun _ =>
     Return
       (Response.mk (JStr GraphQLView.render_graphiql)
          {[ "content-type" := "text/html" ]} 200)).

(** The catch-all: unsupported media type. *)
Definition Reject415 (request : Request.t) : flow dict :=
  Return
    (GraphQLView.error_response "Unsupported Media Type"
       "UnsupportedMediaType" 415 None).

(** The priority order of section 4.1. *)
Definition priority_order (self : GraphQLView.t) : list branch :=
  [UseJsonBody; UseQueryParams; RenderExploration self].

Definition classify (self : GraphQLView.t) (request : Request.t)
    : flow dict :=
  first_applicable (priority_order self) Reject415 request.

End branches.

End Classifier.

(** The condition under which [execute_request] takes its exploration-page
    branch (line 119), the earlier branches having been passed. *)
Definition serves_exploration_page (self : GraphQLView.t)
    (request : Request.t) : bool :=
  bool_decide (Request.method request ∈ GraphQLView.allowed_methods)
  && negb (has_json_content_type request)
  && negb (String.eqb (Request.method request) "GET"
           && truthy (Request.query_params request))
  && String.eqb (Request.method request) "GET"
  && GraphQLView.should_render_graphiql (GraphQLView.graphiql self) request.

(** The protocol errors of [execute_request]: error code, message and HTTP
    status of each [error_response] call. *)
Definition protocol_errors : list (string * string * Z) :=
  [("MethodNotAllowedError",
    "Unsupported method, must be of request type POST or GET", 405);
   ("BadRequestError",
    "Provide a valid graphql query in the body of your request", 400);
   ("UnsupportedMediaType", "Unsupported Media Type", 415);
   ("BadRequestError", "No GraphQL query found in the request", 400)].

(** The four ways in which [execute_request] refuses a request, each with
    the error code, the message and the status it hands to
    [error_response]: the method (line 91), the JSON body (lines 101 and
    110), the media type (line 128) and the missing query (line 137). *)
Inductive rejection `{strawberry.lib} (self : GraphQLView.t)
    (request : Request.t) : string -> string -> Z -> Prop :=
  | reject_method :
      Request.method request ∉ GraphQLView.allowed_methods ->
      rejection self request "MethodNotAllowedError"
        "Unsupported method, must be of request type POST or GET" 405
  | reject_json_body :
      Request.method request ∈ GraphQLView.allowed_methods ->
      has_json_content_type request = true ->
      Request.json_body request = Raise BadRequestError
      \/ (exists value : json,
            Request.json_body request = Ok value /\ as_dict value = None) ->
      rejection self request "BadRequestError"
        "Provide a valid graphql query in the body of your request" 400
  | reject_media_type :
      Request.method request ∈ GraphQLView.allowed_methods ->
      has_json_content_type request = false ->
      String.eqb (Request.method request) "GET"
      && truthy (Request.query_params request) = false ->
      String.eqb (Request.method request) "GET"
      && GraphQLView.should_render_graphiql (GraphQLView.graphiql self)
           request = false ->
      rejection self request "UnsupportedMediaType" "Unsupported Media Type"
        415
  | reject_missing_query (data : dict) :
      Request.method request ∈ GraphQLView.allowed_methods ->
      GraphQLView.select_data self request = Continue data ->
      strawberry.parse_request_data data = Raise MissingQueryError ->
      rejection self request "BadRequestError"
        "No GraphQL query found in the request" 400.

(** A request of the shape that the exploration page answers: a GET without
    JSON content type and without query parameters, to a view with
    exploration enabled, whose [accept] header contains [text/html] or
    [*/*]. *)
Definition asks_for_exploration_page (self : GraphQLView.t)
    (request : Request.t) : Prop :=
  Request.method request = "GET"
  /\ has_json_content_type request = false
  /\ truthy (Request.query_params request) = false
  /\ GraphQLView.graphiql self = true
  /\ (str_in "text/html" (accept_header request) = true
      \/ str_in "*/*" (accept_header request) = true).

(** The exploration-page property with no condition on the content type:
    every GET without query parameters, with exploration enabled and an
    [accept] header that contains [text/html] or [*/*], would be answered
    with the page. *)
Definition exploration_page_whatever_content_type : Prop :=
  forall (imports : strawberry.lib) (self : GraphQLView.t)
         (request : Request.t),
    Request.method request = "GET" ->
    truthy (Request.query_params request) = false ->
    GraphQLView.graphiql self = true ->
    str_in "text/html" (accept_header request) = true
    \/ str_in "*/*" (accept_header request) = true ->
    exists response : Response.t,
      GraphQLView.execute_request self request = Ok response
      /\ Response.status_code response = 200
      /\ Response.headers response !! "content-type" = Some "text/html"
      /\ Response.body response = JStr GraphQLView.render_graphiql.

(** ** Sample configuration and requests *)

Module Examples.

Definition page (subscription_enabled : bool) : string :=
  if subscription_enabled then "<html>GraphiQL with subscriptions</html>"
  else "<html>GraphiQL</html>".

(** A decoder that knows the one text the examples use. *)
Definition json_loads (text : string) : option json :=
  if String.eqb text "{}" then Some (JObj []) else None.

Definition imports : strawberry.lib := spec_http.lib json_loads page.

(** An engine whose every execution fails with the error [boom]. *)
Definition failing_schema : BaseSchema :=
  {| execute_sync := fun _ _ _ _ _ =>
       Ok {| data := JNull;
             errors :=
               [{| message := "boom"; locations := None; path := None |}];
             extensions := None |} |}.

(** An encoder that writes only the keys of the object it is given. *)
Definition keys_encoder : JSONEncoder :=
  fun _ value =>
    match value with
    | JObj items => Ok (String.concat "," (map fst items))
    | _ => Ok "value"
    end.

Definition view : GraphQLView.t :=
  GraphQLView.init keys_encoder failing_schema None None None.

Definition view_without_graphiql : GraphQLView.t :=
  GraphQLView.init keys_encoder failing_schema (Some false) None None.

Definition json_type : gmap string string :=
  {[ "content-type" := "application/json" ]}.

Definition get_json_with_params : Request.t :=
  Request.mk "GET" json_type (Some [("query", ["{ a }"])])
    (Ok (JObj [("query", JStr "{ b }")])).

Definition post_json_array : Request.t :=
  Request.mk "POST" json_type None (Ok (JArr [JStr "{ a }"])).

Definition post_without_query : Request.t :=
  Request.mk "POST" json_type None (Ok (JObj [("operationName", JStr "A")])).

Definition post_query : Request.t :=
  Request.mk "POST" json_type None (Ok (JObj [("query", JStr "{ a }")])).

Definition delete_json : Request.t :=
  Request.mk "DELETE" json_type None (Raise (OtherError "TypeError")).

Definition get_html : Request.t :=
  Request.mk "GET" {[ "accept" := "text/html" ]} None (Ok JNull).

Definition get_any : Request.t :=
  Request.mk "GET" {[ "accept" := "image/png, */*" ]} (Some []) (Ok JNull).

Definition get_bare : Request.t :=
  Request.mk "GET" ∅ None (Ok JNull).

(** A browser-like GET that also declares a JSON content type, with no body
    to parse. *)
Definition get_html_json_type : Request.t :=
  Request.mk "GET" (<[ "accept" := "text/html" ]> json_type) None
    (Raise BadRequestError).

(** A POST of a form, with a query string and a browser's [accept]. *)
Definition post_form : Request.t :=
  Request.mk "POST"
    (<[ "accept" := "text/html" ]>
       {[ "content-type" := "application/x-www-form-urlencoded" ]})
    (Some [("query", ["{ a }"])]) (Ok JNull).

(** An engine that answers every query with the query itself. *)
Definition echo_schema : BaseSchema :=
  {| execute_sync := fun query _ _ _ _ =>
       Ok {| data := query; errors := []; extensions := None |} |}.

(** An encoder that cannot serialise what it is given. *)
Definition raising_encoder : JSONEncoder :=
  fun _ _ => Raise (OtherError "TypeError").

(** The state of the process between two invocations: a clock that moves
    and the page file that the static-asset provider reads. *)
Record world : Type := {
  clock : nat;
  page_file : string
}.

(** The imports as they behave in a state of the process: the provider
    answers with the page file as it is then. *)
Definition imports_in (w : world) : strawberry.lib :=
  spec_http.lib json_loads
    (fun subscription_enabled =>
       if subscription_enabled then page_file w ++ "<!-- subscriptions -->"
       else page_file w).


End Examples.

(** ** [strawberry/exceptions]: the exception classes and the exception hook *)

Module exceptions.

(** The exception classes that [exceptions/__init__.py] and
    [exceptions/invalid_field_argument.py] define, the two classes they
    derive from that are defined elsewhere in the package
    ([StrawberryException], [ExceptionSourceIsArgument]), and the built-in
    [Exception]. *)
Inductive class : Type :=
  | Exception
  | StrawberryException
  | ExceptionSourceIsArgument
  | WrongReturnTypeForUnion
  | UnallowedReturnTypeForUnion
  | InvalidTypeInputForUnion
  | MissingTypesForGenericError
  | UnsupportedTypeError
  | UnresolvedFieldTypeError
  | MultipleStrawberryArgumentsError
  | WrongNumberOfResultsReturned
  | FieldWithResolverAndDefaultValueError
  | FieldWithResolverAndDefaultFactoryError
  | MissingQueryError
  | InvalidDefaultFactoryError
  | InvalidCustomContext
  | InvalidFieldArgumentError.

#[global] Instance class_eq_dec : EqDecision class.
Proof. solve_decision. Defined.

(** The classes that [exceptions/__init__.py] itself defines (lines
    24-153). *)
Definition defined_in_init (c : class) : bool :=
  match c with
  | Exception | StrawberryException | ExceptionSourceIsArgument
  | InvalidFieldArgumentError => false
  | _ => true
  end.

(** The bases a class statement lists.  [imported] gives the bases of the
    two classes defined elsewhere; the built-in [Exception] derives from no
    class of the package. *)
Definition bases (imported : class -> list class) (c : class) : list class :=
  match c with
  | Exception => []
  | StrawberryException | ExceptionSourceIsArgument => imported c
  | InvalidFieldArgumentError =>
      [ExceptionSourceIsArgument; StrawberryException]
  | _ => [Exception]
  end.

(** [issubclass(c, target)], looking at most [depth] class statements up. *)
Fixpoint issubclass_upto (depth : nat) (imported : class -> list class)
    (c target : class) : bool :=
  bool_decide (c = target)
  || match depth with
     | O => false
     | S depth' =>
         existsb (fun base => issubclass_upto depth' imported base target)
           (bases imported c)
     end.

(** [issubclass(c, target)]: a chain of bases has no class twice, so it is
    no longer than the classes are many. *)
Definition issubclass (imported : class -> list class) (c target : class)
    : bool :=
  issubclass_upto 17 imported c target.

(** [str.lower()] on the letters A to Z; the values of the setting are read
    as ASCII text. *)
Definition lower_ascii (c : Ascii.ascii) : Ascii.ascii :=
  let n := Ascii.N_of_ascii c in
  if (65 <=? n)%N && (n <=? 90)%N then Ascii.ascii_of_N (n + 32) else c.

Fixpoint lower (s : string) : string :=
  match s with
  | EmptyString => EmptyString
  | String c rest => String (lower_ascii c) (lower rest)
  end.

(** [str.upper()] on the letters a to z. *)
Definition upper_ascii (c : Ascii.ascii) : Ascii.ascii :=
  let n := Ascii.N_of_ascii c in
  if (97 <=? n)%N && (n <=? 122)%N then Ascii.ascii_of_N (n - 32) else c.

Fixpoint upper (s : string) : string :=
  match s with
  | EmptyString => EmptyString
  | String c rest => String (upper_ascii c) (upper rest)
  end.

(** [_should_use_rich_exceptions()], over the process environment
    [os.environ]. *)
Definition _should_use_rich_exceptions (environ : gmap string string)
    : bool :=
  let errors_disabled :=
    default "" (environ !! "STRAWBERRY_DISABLE_RICH_ERRORS") in
  negb (bool_decide (lower errors_disabled ∈ ["true"; "1"; "yes"])).

(** The two hooks an exception can be handed to: the [_handler] that
    prints it with [rich.print], and [original_exception_hook], the
    [sys.excepthook] found at import. *)
Inductive hook : Type :=
  | rich_print
  | original_exception_hook.

(** [_get_handler()] inside [exception_handler]: [rich_installed] says
    whether [import rich] succeeds. *)
Definition _get_handler (imported : class -> list class)
    (exception_type : class) (environ : gmap string string)
    (rich_installed : bool) : hook :=
  if issubclass imported exception_type StrawberryException
     && _should_use_rich_exceptions environ
  then
    if rich_installed then rich_print else original_exception_hook
  else original_exception_hook.

(** [exception_handler(exception_type, exception, traceback)]: the hook
    that is called with the three arguments. *)
Definition exception_handler (imported : class -> list class)
    (exception_type : class) (environ : gmap string string)
    (rich_installed : bool) : hook :=
  _get_handler imported exception_type environ rich_installed.

(** The order of [str], [a <= b], on the ASCII text that the names of
    GraphQL types are. *)
Definition str_le (a b : string) : Prop := String.leb a b = true.

#[global] Instance str_le_dec : RelDecision str_le.
Proof. intros a b. unfold str_le. solve_decision. Defined.




End exceptions.


(** * Properties *)

(** ** Auxiliary facts *)

Lemma allowed_method_iff (m : string) :
  m ∈ GraphQLView.allowed_methods <-> m = "POST" \/ m = "GET".
Proof. unfold GraphQLView.allowed_methods. set_solver. Qed.

Lemma allowed_method_false (m : string) :
  m <> "GET" -> m <> "POST" ->
  bool_decide (m ∈ GraphQLView.allowed_methods) = false.
Proof.
  intros Hget Hpost. apply bool_decide_eq_false.
  rewrite allowed_method_iff. tauto.
Qed.

(** A header that is absent reads as the empty string, in which neither
    [text/html] nor [*/*] occurs. *)
Lemma absent_accept_matches_nothing (request : Request.t) :
  Request.headers request !! "accept" = None ->
  str_in "text/html" (accept_header request) = false
  /\ str_in "*/*" (accept_header request) = false.
Proof.
  intros Habsent. unfold accept_header, Request.headers_get.
  rewrite Habsent. split; reflexivity.
Qed.

Section view_facts.
Context `{strawberry.lib}.

(** [should_render_graphiql] spelled out: the flag, and one of the two
    supported values in the [accept] header. *)
Lemma should_render_graphiql_spec (graphiql : bool) (request : Request.t) :
  GraphQLView.should_render_graphiql graphiql request
  = graphiql
    && (str_in "text/html" (accept_header request)
        || str_in "*/*" (accept_header request)).
Proof.
  unfold GraphQLView.should_render_graphiql, accept_header.
  destruct graphiql; simpl; [ | reflexivity ].
  rewrite orb_false_r. reflexivity.
Qed.

(** Past the method check, [execute_request] is the classifier followed by
    the rest of the method. *)
Lemma execute_request_allowed (self : GraphQLView.t) (request : Request.t) :
  Request.method request ∈ GraphQLView.allowed_methods ->
  GraphQLView.execute_request self request
  = match GraphQLView.select_data self request with
    | Continue data => GraphQLView.execute_data self request data
    | Return response => Ok response
    | Throw e => Raise e
    end.
Proof.
  intros Hm. unfold GraphQLView.execute_request.
  rewrite (bool_decide_eq_true_2 _ Hm). reflexivity.
Qed.

(** The classifier on a request whose content type is not JSON and which
    carries no query parameters to a GET. *)
Lemma select_data_no_source (self : GraphQLView.t) (request : Request.t) :
  has_json_content_type request = false ->
  String.eqb (Request.method request) "GET"
  && truthy (Request.query_params request) = false ->
  GraphQLView.select_data self request
  = if String.eqb (Request.method request) "GET"
       && GraphQLView.should_render_graphiql (GraphQLView.graphiql self)
            request
    then
      Return
        (Response.mk (JStr GraphQLView.render_graphiql)
           {[ "content-type" := "text/html" ]} 200)
    else
      Return
        (GraphQLView.error_response "Unsupported Media Type"
           "UnsupportedMediaType" 415 None).
Proof.
  intros Hjson Hparams. unfold GraphQLView.select_data.
  unfold has_json_content_type in Hjson. rewrite Hjson, Hparams.
  reflexivity.
Qed.

(** A missing query, as [parse_request_data] reports it, is answered with
    the 400 of line 138. *)
Lemma execute_data_missing_query (self : GraphQLView.t)
    (request : Request.t) (data : dict) :
  strawberry.parse_request_data data = Raise MissingQueryError ->
  GraphQLView.execute_data self request data
  = Ok
      (GraphQLView.error_response "No GraphQL query found in the request"
         "BadRequestError" 400 None).
Proof.
  intros Hraise. unfold GraphQLView.execute_data. rewrite Hraise.
  reflexivity.
Qed.

(** Before the method check is passed, nothing but the method is read. *)
Lemma execute_request_refused (self : GraphQLView.t) (request : Request.t) :
  bool_decide (Request.method request ∈ GraphQLView.allowed_methods)
  = false ->
  GraphQLView.execute_request self request
  = Ok
      (GraphQLView.error_response
         "Unsupported method, must be of request type POST or GET"
         "MethodNotAllowedError" 405 None).
Proof.
  intros Hrefused. unfold GraphQLView.execute_request.
  rewrite Hrefused. reflexivity.
Qed.

End view_facts.

(** ** The request classifier *)

Section classifier_properties.
Context `{strawberry.lib}.

(** C1: the [if]/[elif] chain of [execute_request] decides as the ordered
    list JSON body, query parameters, exploration page does, with 415 as the
    catch-all: the first branch that applies is the one taken.  In
    particular, a GET whose content type contains [application/json] and
    whose body parses as an object uses that object as its data source even
    with query parameters present. *)
Theorem classifier_priority_order (self : GraphQLView.t)
    (request : Request.t) :
  GraphQLView.select_data self request = Classifier.classify self request
  /\ (forall items : dict,
        Request.method request = "GET" ->
        has_json_content_type request = true ->
        Request.json_body request = Ok (JObj items) ->
        truthy (Request.query_params request) = true ->
        GraphQLView.select_data self request = Continue items
        /\ GraphQLView.execute_request self request
           = GraphQLView.execute_data self request items).
Proof.
  split.
  - unfold Classifier.classify, Classifier.first_applicable,
      Classifier.priority_order, Classifier.UseJsonBody,
      Classifier.UseQueryParams, Classifier.RenderExploration,
      Classifier.Reject415, Classifier.bad_json_body,
      GraphQLView.select_data.
    cbv beta iota delta [find fst snd].
    fold (has_json_content_type request).
    destruct (has_json_content_type request) eqn:Hjson.
    + destruct (Request.json_body request) as [value | e].
      * destruct value; reflexivity.
      * destruct e; reflexivity.
    + unfold Classifier.is_get. rewrite andb_true_r.
      destruct (String.eqb (Request.method request) "GET"
                && truthy (Request.query_params request)) eqn:Hparams.
      * reflexivity.
      * rewrite should_render_graphiql_spec.
        destruct (String.eqb (Request.method request) "GET") eqn:Hget;
          [ | reflexivity ].
        cbn [andb] in Hparams |- *. rewrite Hparams.
        cbn [negb andb].
        destruct (GraphQLView.graphiql self
                  && (str_in "text/html" (accept_header request)
                      || str_in "*/*" (accept_header request)));
          reflexivity.
  - intros items Hget Hjson Hbody Hparams.
    assert (GraphQLView.select_data self request = Continue items) as Hsel.
    { unfold GraphQLView.select_data.
      unfold has_json_content_type in Hjson. rewrite Hjson, Hbody.
      reflexivity. }
    split; [ exact Hsel | ].
    rewrite execute_request_allowed, Hsel; [ reflexivity | ].
    apply allowed_method_iff. tauto.
Qed.

(** C2: a GET or POST whose content type contains [application/json] and
    whose body does not parse as JSON, or parses to something other than an
    object, is answered with status 400, code [BadRequestError] and the
    message that asks for a valid query in the body. *)
Theorem bad_json_body_is_bad_request (self : GraphQLView.t)
    (request : Request.t) :
  Request.method request = "GET" \/ Request.method request = "POST" ->
  has_json_content_type request = true ->
  Request.json_body request = Raise BadRequestError
  \/ (exists value : json,
        Request.json_body request = Ok value /\ as_dict value = None) ->
  GraphQLView.execute_request self request
  = Ok
      (Response.mk
         (JObj
            [("Code", JStr "BadRequestError");
             ("Message",
              JStr "Provide a valid graphql query in the body of your request")])
         ∅ 400).
Proof.
  intros Hmethod Hjson Hbody.
  rewrite execute_request_allowed by (apply allowed_method_iff; tauto).
  unfold GraphQLView.select_data.
  unfold has_json_content_type in Hjson. rewrite Hjson.
  destruct Hbody as [Hraise | (value & Hvalue & Hdict)].
  - rewrite Hraise. reflexivity.
  - rewrite Hvalue, Hdict. reflexivity.
Qed.

(** C4: a request whose method is neither GET nor POST is answered with
    status 405 and code [MethodNotAllowedError], whatever its headers, query
    parameters and body are: nothing else of the request is read. *)
Theorem unsupported_method_is_rejected (self : GraphQLView.t)
    (request : Request.t) :
  Request.method request <> "GET" ->
  Request.method request <> "POST" ->
  GraphQLView.execute_request self request
  = Ok
      (Response.mk
         (JObj
            [("Code", JStr "MethodNotAllowedError");
             ("Message",
              JStr "Unsupported method, must be of request type POST or GET")])
         ∅ 405).
Proof.
  intros Hget Hpost. unfold GraphQLView.execute_request.
  rewrite (allowed_method_false _ Hget Hpost). reflexivity.
Qed.

End classifier_properties.

(** ** Extraction and execution *)

(** C3: with [parse_request_data] as the specification describes it, a
    request that reaches the extraction with a data source that has no
    [query] key, or an empty query, is answered with status 400, code
    [BadRequestError] and the message [No GraphQL query found in the
    request]. *)
Theorem missing_query_is_bad_request (json_loads : string -> option json)
    (get_graphiql_html : bool -> string) (self : GraphQLView.t)
    (request : Request.t) (data : dict) :
  Request.method request ∈ GraphQLView.allowed_methods ->
  @GraphQLView.select_data (spec_http.lib json_loads get_graphiql_html)
    self request = Continue data ->
  dict_get "query" data = None
  \/ dict_get "query" data = Some (JStr "") ->
  @GraphQLView.execute_request (spec_http.lib json_loads get_graphiql_html)
    self request
  = Ok
      (Response.mk
         (JObj
            [("Code", JStr "BadRequestError");
             ("Message", JStr "No GraphQL query found in the request")])
         ∅ 400).
Proof.
  intros Hmethod Hdata Hquery.
  rewrite execute_request_allowed, Hdata by exact Hmethod.
  rewrite execute_data_missing_query; [ reflexivity | ].
  cbn [strawberry.parse_request_data spec_http.lib].
  unfold spec_http.parse_request_data.
  destruct Hquery as [Hquery | Hquery]; rewrite Hquery; reflexivity.
Qed.

(** The message of that response is the handler's own, not the text the
    exception carries. *)
Remark missing_query_message_is_the_handler's :
  MissingQueryError_message <> "No GraphQL query found in the request".
Proof. discriminate. Qed.

Section execution_properties.
Context `{strawberry.lib}.

(** C5: for a request that reaches the execution, every response that
    comes back has status 200; and whatever [ExecutionResult] the engine
    returns, errors included, once it is processed and encoded the response
    has status 200 and the encoded result as body. *)
Theorem executed_request_has_status_200 (self : GraphQLView.t)
    (request : Request.t) (data : dict)
    (request_data : GraphQLRequestData) :
  Request.method request ∈ GraphQLView.allowed_methods ->
  GraphQLView.select_data self request = Continue data ->
  strawberry.parse_request_data data = Ok request_data ->
  (forall response : Response.t,
      GraphQLView.execute_request self request = Ok response ->
      Response.status_code response = 200)
  /\ (forall (result : ExecutionResult) (http_result : json)
             (text : string),
        execute_sync (GraphQLView._schema self) (query request_data)
          (variables request_data) request (operation_name request_data)
          JNull = Ok result ->
        strawberry.process_result result = Ok http_result ->
        GraphQLView.json_encoder self (GraphQLView.json_dumps_params self)
          http_result = Ok text ->
        exists response : Response.t,
          GraphQLView.execute_request self request = Ok response
          /\ Response.status_code response = 200
          /\ Response.body response = JStr text).
Proof.
  intros Hmethod Hdata Hparsed.
  rewrite execute_request_allowed, Hdata by exact Hmethod.
  unfold GraphQLView.execute_data, GraphQLView.process_result.
  rewrite Hparsed. split.
  - intros response Hrun. repeat case_match; simplify_eq. reflexivity.
  - intros result http_result text Hresult Hprocessed Hencoded.
    rewrite Hresult, Hprocessed, Hencoded.
    eexists. split; [ reflexivity | ]. split; reflexivity.
Qed.

(** ** The exploration page and the catch-all *)

(** C6, as the code has it: a GET without query parameters, whose content
    type does not contain [application/json], with exploration enabled and
    an [accept] header that contains [text/html] or [*/*], is answered by
    the classifier itself, before any extraction, with status 200, content
    type [text/html] and the exploration page as body. *)
Theorem exploration_page_is_served (self : GraphQLView.t)
    (request : Request.t) :
  Request.method request = "GET" ->
  truthy (Request.query_params request) = false ->
  has_json_content_type request = false ->
  GraphQLView.graphiql self = true ->
  str_in "text/html" (accept_header request) = true
  \/ str_in "*/*" (accept_header request) = true ->
  GraphQLView.select_data self request
  = Return
      (Response.mk (JStr (strawberry.get_graphiql_html false))
         {[ "content-type" := "text/html" ]} 200)
  /\ GraphQLView.execute_request self request
     = Ok
         (Response.mk (JStr (strawberry.get_graphiql_html false))
            {[ "content-type" := "text/html" ]} 200).
Proof.
  intros Hget Hparams Hjson Hflag Haccept.
  assert (GraphQLView.select_data self request
          = Return
              (Response.mk (JStr (strawberry.get_graphiql_html false))
                 {[ "content-type" := "text/html" ]} 200)) as Hsel.
  { rewrite select_data_no_source;
      [ | exact Hjson | rewrite Hparams; apply andb_false_r ].
    rewrite should_render_graphiql_spec, Hget, Hflag.
    destruct Haccept as [Hhtml | Hany].
    - rewrite Hhtml. reflexivity.
    - rewrite Hany, orb_true_r. reflexivity. }
  split; [ exact Hsel | ].
  rewrite execute_request_allowed, Hsel; [ reflexivity | ].
  apply allowed_method_iff. tauto.
Qed.

(** C7: a GET without query parameters, whose content type does not contain
    [application/json], with exploration disabled, is answered with status
    415 and code [UnsupportedMediaType]. *)
Theorem get_without_exploration_is_unsupported (self : GraphQLView.t)
    (request : Request.t) :
  Request.method request = "GET" ->
  truthy (Request.query_params request) = false ->
  has_json_content_type request = false ->
  GraphQLView.graphiql self = false ->
  GraphQLView.execute_request self request
  = Ok
      (Response.mk
         (JObj
            [("Code", JStr "UnsupportedMediaType");
             ("Message", JStr "Unsupported Media Type")])
         ∅ 415).
Proof.
  intros Hget Hparams Hjson Hflag.
  rewrite execute_request_allowed by (apply allowed_method_iff; tauto).
  rewrite select_data_no_source;
    [ | exact Hjson | rewrite Hparams; apply andb_false_r ].
  rewrite should_render_graphiql_spec, Hflag, andb_false_r.
  reflexivity.
Qed.

(** C10: a GET without query parameters, whose content type does not contain
    [application/json], with exploration enabled, whose [accept] header is
    absent or contains neither [text/html] nor [*/*], is answered with
    status 415: the absent header reads as the empty string and matches
    nothing. *)
Theorem unmatched_accept_is_unsupported (self : GraphQLView.t)
    (request : Request.t) :
  Request.method request = "GET" ->
  truthy (Request.query_params request) = false ->
  has_json_content_type request = false ->
  GraphQLView.graphiql self = true ->
  Request.headers request !! "accept" = None
  \/ (str_in "text/html" (accept_header request) = false
      /\ str_in "*/*" (accept_header request) = false) ->
  (Request.headers request !! "accept" = None ->
   accept_header request = "")
  /\ GraphQLView.should_render_graphiql (GraphQLView.graphiql self) request
     = false
  /\ GraphQLView.execute_request self request
     = Ok
         (Response.mk
            (JObj
               [("Code", JStr "UnsupportedMediaType");
                ("Message", JStr "Unsupported Media Type")])
            ∅ 415).
Proof.
  intros Hget Hparams Hjson Hflag Haccept.
  assert (str_in "text/html" (accept_header request) = false
          /\ str_in "*/*" (accept_header request) = false)
    as [Hhtml Hany].
  { destruct Haccept as [Habsent | Hneither];
      [ apply absent_accept_matches_nothing; exact Habsent
      | exact Hneither ]. }
  assert (GraphQLView.should_render_graphiql (GraphQLView.graphiql self)
            request = false) as Hrender.
  { rewrite should_render_graphiql_spec, Hhtml, Hany.
    apply andb_false_r. }
  split; [ | split; [ exact Hrender | ] ].
  - intros Habsent. unfold accept_header, Request.headers_get.
    rewrite Habsent. reflexivity.
  - rewrite execute_request_allowed by (apply allowed_method_iff; tauto).
    rewrite select_data_no_source;
      [ | exact Hjson | rewrite Hparams; apply andb_false_r ].
    rewrite Hrender, andb_false_r. reflexivity.
Qed.

End execution_properties.

(** The page is not served when the content type is JSON: the browser-like
    GET of [Examples.get_html_json_type] meets every condition of the
    unconditional property and is answered with status 400. *)
Lemma exploration_page_yields_to_json_content_type :
  ~ exploration_page_whatever_content_type.
Proof.
  intros Hclaim.
  destruct (Hclaim Examples.imports Examples.view Examples.get_html_json_type)
    as (response & Hresponse & Hstatus & _).
  - reflexivity.
  - reflexivity.
  - reflexivity.
  - left. vm_compute. reflexivity.
  - vm_compute in Hresponse. inversion Hresponse as [Heq].
    rewrite <- Heq in Hstatus. discriminate Hstatus.
Qed.

(** ** The error responder *)

Section responder_properties.
Context `{strawberry.lib}.

(** What the classifier returns, and on which branch. *)
Lemma select_data_returns (self : GraphQLView.t) (request : Request.t)
    (response : Response.t) :
  GraphQLView.select_data self request = Return response ->
  (has_json_content_type request = true
   /\ (Request.json_body request = Raise BadRequestError
       \/ exists value : json,
            Request.json_body request = Ok value /\ as_dict value = None)
   /\ response
      = GraphQLView.error_response
          "Provide a valid graphql query in the body of your request"
          "BadRequestError" 400 None)
  \/ (has_json_content_type request = false
      /\ String.eqb (Request.method request) "GET"
         && truthy (Request.query_params request) = false
      /\ String.eqb (Request.method request) "GET"
         && GraphQLView.should_render_graphiql (GraphQLView.graphiql self)
              request = true
      /\ response
         = Response.mk (JStr (strawberry.get_graphiql_html false))
             {[ "content-type" := "text/html" ]} 200)
  \/ (has_json_content_type request = false
      /\ String.eqb (Request.method request) "GET"
         && truthy (Request.query_params request) = false
      /\ String.eqb (Request.method request) "GET"
         && GraphQLView.should_render_graphiql (GraphQLView.graphiql self)
              request = false
      /\ response
         = GraphQLView.error_response "Unsupported Media Type"
             "UnsupportedMediaType" 415 None).
Proof.
  unfold GraphQLView.select_data. fold (has_json_content_type request).
  intros Hsel.
  destruct (has_json_content_type request).
  - left. split; [ reflexivity | ].
    destruct (Request.json_body request) as [value | e].
    + destruct (as_dict value) eqn:Hdict; [ discriminate Hsel | ].
      injection Hsel as <-.
      split; [ right; exists value; tauto | reflexivity ].
    + destruct e; try discriminate Hsel. injection Hsel as <-.
      split; [ left; reflexivity | reflexivity ].
  - right.
    destruct (String.eqb (Request.method request) "GET"
              && truthy (Request.query_params request)).
    + destruct (strawberry.parse_query_params _); discriminate Hsel.
    + destruct (String.eqb (Request.method request) "GET"
                && GraphQLView.should_render_graphiql
                     (GraphQLView.graphiql self) request);
        [ left | right ]; injection Hsel as <-; repeat split.
Qed.

(** C8: [error_response] builds exactly the body with the keys [Code] and
    [Message], with the status it is given; each of the four refusals of
    [execute_request] (method, JSON body, missing query, media type) returns
    what [error_response] builds from its code and message; and a response
    that is not one of these is the exploration page or the encoded result,
    whose bodies are text: no other path makes an error body. *)
Theorem protocol_errors_have_one_shape (self : GraphQLView.t)
    (request : Request.t) :
  (forall (message code : string) (status : Z)
          (headers : option (gmap string string)),
      GraphQLView.error_response message code status headers
      = Response.mk (JObj [("Code", JStr code); ("Message", JStr message)])
          (default ∅ headers) status)
  /\ (forall (code message : string) (status : Z),
        rejection self request code message status ->
        In (code, message, status) protocol_errors
        /\ GraphQLView.execute_request self request
           = Ok
               (Response.mk
                  (JObj [("Code", JStr code); ("Message", JStr message)])
                  ∅ status))
  /\ (forall response : Response.t,
        GraphQLView.execute_request self request = Ok response ->
        (exists (code message : string) (status : Z),
            rejection self request code message status
            /\ response
               = GraphQLView.error_response message code status None)
        \/ (Request.method request = "GET"
            /\ has_json_content_type request = false
            /\ truthy (Request.query_params request) = false
            /\ GraphQLView.should_render_graphiql
                 (GraphQLView.graphiql self) request = true
            /\ response
               = Response.mk (JStr (strawberry.get_graphiql_html false))
                   {[ "content-type" := "text/html" ]} 200)
        \/ (exists (data : dict) (request_data : GraphQLRequestData)
                   (result : ExecutionResult) (http_result : json)
                   (text : string),
               GraphQLView.select_data self request = Continue data
               /\ strawberry.parse_request_data data = Ok request_data
               /\ execute_sync (GraphQLView._schema self)
                    (query request_data) (variables request_data) request
                    (operation_name request_data) JNull = Ok result
               /\ strawberry.process_result result = Ok http_result
               /\ GraphQLView.json_encoder self
                    (GraphQLView.json_dumps_params self) http_result
                  = Ok text
               /\ response = Response.mk (JStr text) ∅ 200)).
Proof.
  split; [ | split ].
  - intros message code status headers. reflexivity.
  - intros code message status Hrejection.
    destruct Hrejection
      as [Hmethod
         | Hmethod Hjson Hbody
         | Hmethod Hjson Hparams Hrender
         | data Hmethod Hsel Hraise].
    + split; [ left; reflexivity | ].
      apply execute_request_refused, bool_decide_eq_false. exact Hmethod.
    + split; [ right; left; reflexivity | ].
      rewrite execute_request_allowed by exact Hmethod.
      unfold GraphQLView.select_data.
      unfold has_json_content_type in Hjson. rewrite Hjson.
      destruct Hbody as [Hraise | (value & Hvalue & Hdict)].
      * rewrite Hraise. reflexivity.
      * rewrite Hvalue, Hdict. reflexivity.
    + split; [ right; right; left; reflexivity | ].
      rewrite execute_request_allowed by exact Hmethod.
      rewrite select_data_no_source by assumption.
      rewrite Hrender. reflexivity.
    + split; [ right; right; right; left; reflexivity | ].
      rewrite execute_request_allowed, Hsel by exact Hmethod.
      rewrite execute_data_missing_query by exact Hraise. reflexivity.
  - intros response Hrun.
    destruct (bool_decide
                (Request.method request ∈ GraphQLView.allowed_methods))
      eqn:Hallowed.
    + apply bool_decide_eq_true in Hallowed.
      rewrite execute_request_allowed in Hrun by exact Hallowed.
      destruct (GraphQLView.select_data self request)
        as [data | returned | e] eqn:Hsel; [ | | discriminate Hrun ].
      * unfold GraphQLView.execute_data, GraphQLView.process_result in Hrun.
        destruct (strawberry.parse_request_data data)
          as [request_data | e] eqn:Hparsed.
        -- right; right. exists data, request_data.
           destruct (execute_sync _ _ _ _ _ _) as [result | e] eqn:Hresult;
             [ | discriminate Hrun ].
           destruct (strawberry.process_result result)
             as [http_result | e] eqn:Hprocessed; [ | discriminate Hrun ].
           destruct (GraphQLView.json_encoder _ _ _) as [text | e]
             eqn:Hencoded; [ | discriminate Hrun ].
           exists result, http_result, text. simplify_eq. tauto.
        -- destruct e; simplify_eq. left. eexists _, _, _.
           split; [ | reflexivity ].
           apply (reject_missing_query self request data); assumption.
      * simplify_eq. apply select_data_returns in Hsel.
        destruct Hsel
          as [(Hjson & Hbody & ->)
             | [(Hjson & Hparams & Hrender & ->)
               | (Hjson & Hparams & Hrender & ->)]].
        -- left. eexists _, _, _. split; [ | reflexivity ].
           apply reject_json_body; assumption.
        -- right; left.
           apply andb_prop in Hrender. destruct Hrender as [Hget Hrender].
           rewrite Hget in Hparams. apply String.eqb_eq in Hget.
           cbn [andb] in Hparams. tauto.
        -- left. eexists _, _, _. split; [ | reflexivity ].
           apply reject_media_type; assumption.
    + rewrite execute_request_refused in Hrun by exact Hallowed.
      simplify_eq. left. eexists _, _, _. split; [ | reflexivity ].
      apply reject_method.
      exact (proj1 (bool_decide_eq_false _) Hallowed).
Qed.

End responder_properties.

(** ** The exploration page across invocations *)

Section page_across_invocations.

(** The process has a state that differs from one invocation to the next;
    [configuration] is the part of it that the static-asset provider
    depends on, and [imports_in] gives the imported functions as they
    behave in a state. *)
Variables (World Configuration : Type).
Variable configuration : World -> Configuration.
Variable imports_in : World -> strawberry.lib.

(** The provider's contract: its page depends on the configuration only. *)
Hypothesis page_of_configuration :
  forall (w1 w2 : World) (subscription_enabled : bool),
    configuration w1 = configuration w2 ->
    @strawberry.get_graphiql_html (imports_in w1) subscription_enabled
    = @strawberry.get_graphiql_html (imports_in w2) subscription_enabled.

(** C9: with a static-asset provider whose page depends on the
    configuration only, as the specification has it, two invocations under
    the same configuration, of any two requests that ask for the
    exploration page and at whatever state otherwise, get responses with
    the same body: the page the provider gives without subscriptions, with
    nothing of the request, of the view or of the rest of the state in
    it. *)
Theorem exploration_page_is_deterministic (w1 w2 : World)
    (self1 self2 : GraphQLView.t) (request1 request2 : Request.t) :
  configuration w1 = configuration w2 ->
  asks_for_exploration_page self1 request1 ->
  asks_for_exploration_page self2 request2 ->
  exists (response1 response2 : Response.t),
    @GraphQLView.execute_request (imports_in w1) self1 request1
    = Ok response1
    /\ @GraphQLView.execute_request (imports_in w2) self2 request2
       = Ok response2
    /\ Response.body response1 = Response.body response2
    /\ Response.body response1
       = JStr (@strawberry.get_graphiql_html (imports_in w1) false).
Proof.
  assert (forall (w : World) self request,
             asks_for_exploration_page self request ->
             @GraphQLView.execute_request (imports_in w) self request
             = Ok
                 (Response.mk
                    (JStr (@strawberry.get_graphiql_html (imports_in w)
                             false))
                    {[ "content-type" := "text/html" ]} 200)) as Hpage.
  { intros w self request (Hget & Hjson & Hparams & Hflag & Haccept).
    rewrite execute_request_allowed
      by (apply allowed_method_iff; tauto).
    rewrite select_data_no_source;
      [ | exact Hjson | rewrite Hparams; apply andb_false_r ].
    rewrite should_render_graphiql_spec, Hget, Hflag.
    destruct Haccept as [Hhtml | Hany].
    - rewrite Hhtml. reflexivity.
    - rewrite Hany, orb_true_r. reflexivity. }
  intros Hsame Hfirst Hsecond.
  eexists _, _.
  split; [ apply (Hpage w1 _ _ Hfirst) | ].
  split; [ apply (Hpage w2 _ _ Hsecond) | ].
  cbn [Response.body]. split; [ | reflexivity ].
  rewrite (page_of_configuration w1 w2 false Hsame). reflexivity.
Qed.

End page_across_invocations.

(** * The properties at the sample requests *)

(** The GET of [Examples.get_json_with_params] carries both a JSON object
    and query parameters: the object is its data source. *)
Lemma classifier_priority_order_witness :
  @GraphQLView.select_data Examples.imports Examples.view
    Examples.get_json_with_params
  = Continue [("query", JStr "{ b }")]
  /\ @GraphQLView.execute_request Examples.imports Examples.view
       Examples.get_json_with_params
     = @GraphQLView.execute_data Examples.imports Examples.view
         Examples.get_json_with_params [("query", JStr "{ b }")].
Proof.
  apply (proj2
           (@classifier_priority_order Examples.imports Examples.view
              Examples.get_json_with_params)).
  - reflexivity.
  - vm_compute. reflexivity.
  - reflexivity.
  - reflexivity.
Defined.

(** A POST whose JSON body is an array. *)
Lemma bad_json_body_is_bad_request_witness :
  @GraphQLView.execute_request Examples.imports Examples.view
    Examples.post_json_array
  = Ok
      (Response.mk
         (JObj
            [("Code", JStr "BadRequestError");
             ("Message",
              JStr "Provide a valid graphql query in the body of your request")])
         ∅ 400).
Proof.
  apply (@bad_json_body_is_bad_request Examples.imports Examples.view
           Examples.post_json_array).
  - right. reflexivity.
  - vm_compute. reflexivity.
  - right. exists (JArr [JStr "{ a }"]). split; reflexivity.
Defined.

(** A POST whose JSON object has no [query] key. *)
Lemma missing_query_is_bad_request_witness :
  @GraphQLView.execute_request Examples.imports Examples.view
    Examples.post_without_query
  = Ok
      (Response.mk
         (JObj
            [("Code", JStr "BadRequestError");
             ("Message", JStr "No GraphQL query found in the request")])
         ∅ 400).
Proof.
  apply (missing_query_is_bad_request Examples.json_loads Examples.page
           Examples.view Examples.post_without_query
           [("operationName", JStr "A")]).
  - apply allowed_method_iff. left. reflexivity.
  - vm_compute. reflexivity.
  - left. reflexivity.
Defined.

(** A DELETE, whose body is never read. *)
Lemma unsupported_method_is_rejected_witness :
  @GraphQLView.execute_request Examples.imports Examples.view
    Examples.delete_json
  = Ok
      (Response.mk
         (JObj
            [("Code", JStr "MethodNotAllowedError");
             ("Message",
              JStr "Unsupported method, must be of request type POST or GET")])
         ∅ 405).
Proof.
  apply (@unsupported_method_is_rejected Examples.imports Examples.view
           Examples.delete_json); discriminate.
Defined.

(** A POST with a query, run by the engine that fails with [boom]: the
    result carries [data] and [errors], and the status is 200. *)
Lemma executed_request_has_status_200_witness :
  exists response : Response.t,
    @GraphQLView.execute_request Examples.imports Examples.view
      Examples.post_query = Ok response
    /\ Response.status_code response = 200
    /\ Response.body response = JStr "data,errors".
Proof.
  apply (proj2
           (@executed_request_has_status_200 Examples.imports Examples.view
              Examples.post_query [("query", JStr "{ a }")]
              {| query := JStr "{ a }"; variables := JObj [];
                 operation_name := JNull |}
              ltac:(apply allowed_method_iff; left; reflexivity)
              ltac:(vm_compute; reflexivity)
              ltac:(reflexivity))
           {| data := JNull;
              errors :=
                [{| message := "boom"; locations := None; path := None |}];
              extensions := None |}
           (JObj
              [("data", JNull);
               ("errors", JArr [JObj [("message", JStr "boom")]])])
           "data,errors").
  - reflexivity.
  - reflexivity.
  - reflexivity.
Defined.

(** A GET that accepts [text/html]. *)
Lemma exploration_page_is_served_witness :
  @GraphQLView.select_data Examples.imports Examples.view Examples.get_html
  = Return
      (Response.mk (JStr "<html>GraphiQL</html>")
         {[ "content-type" := "text/html" ]} 200)
  /\ @GraphQLView.execute_request Examples.imports Examples.view
       Examples.get_html
     = Ok
         (Response.mk (JStr "<html>GraphiQL</html>")
            {[ "content-type" := "text/html" ]} 200).
Proof.
  apply (@exploration_page_is_served Examples.imports Examples.view
           Examples.get_html).
  - reflexivity.
  - reflexivity.
  - vm_compute. reflexivity.
  - reflexivity.
  - left. vm_compute. reflexivity.
Defined.

(** The same GET to a view built with [render_graphiql=False]. *)
Lemma get_without_exploration_is_unsupported_witness :
  @GraphQLView.execute_request Examples.imports
    Examples.view_without_graphiql Examples.get_html
  = Ok
      (Response.mk
         (JObj
            [("Code", JStr "UnsupportedMediaType");
             ("Message", JStr "Unsupported Media Type")])
         ∅ 415).
Proof.
  apply (@get_without_exploration_is_unsupported Examples.imports
           Examples.view_without_graphiql Examples.get_html).
  - reflexivity.
  - reflexivity.
  - vm_compute. reflexivity.
  - reflexivity.
Defined.

(** The POST with an array for body is one of the refusals, and gets the
    body that [error_response] builds. *)
Lemma protocol_errors_have_one_shape_witness :
  In ("BadRequestError",
      "Provide a valid graphql query in the body of your request", 400)
    protocol_errors
  /\ @GraphQLView.execute_request Examples.imports Examples.view
       Examples.post_json_array
     = Ok
         (Response.mk
            (JObj
               [("Code", JStr "BadRequestError");
                ("Message",
                 JStr
                   "Provide a valid graphql query in the body of your request")])
            ∅ 400).
Proof.
  apply (proj1
           (proj2
              (@protocol_errors_have_one_shape Examples.imports
                 Examples.view Examples.post_json_array))).
  apply reject_json_body.
  - apply allowed_method_iff. left. reflexivity.
  - vm_compute. reflexivity.
  - right. exists (JArr [JStr "{ a }"]). split; reflexivity.
Defined.

(** Two different GETs, to two views, at two states of the process with the
    same page file: both get the page. *)
Lemma exploration_page_is_deterministic_witness :
  exists (response1 response2 : Response.t),
    @GraphQLView.execute_request
      (Examples.imports_in
         {| Examples.clock := 1;
            Examples.page_file := "<html>GraphiQL</html>" |})
      Examples.view Examples.get_html
    = Ok response1
    /\ @GraphQLView.execute_request
         (Examples.imports_in
            {| Examples.clock := 2;
               Examples.page_file := "<html>GraphiQL</html>" |})
         (GraphQLView.init Examples.keys_encoder Examples.echo_schema
            (Some true) None (Some [("indent", JNum 2)]))
         Examples.get_any
       = Ok response2
    /\ Response.body response1 = Response.body response2
    /\ Response.body response1
       = JStr
           (@strawberry.get_graphiql_html
              (Examples.imports_in
                 {| Examples.clock := 1;
                    Examples.page_file := "<html>GraphiQL</html>" |})
              false).
Proof.
  apply (exploration_page_is_deterministic Examples.world string
           Examples.page_file Examples.imports_in).
  - intros w1 w2 subscription_enabled Hsame. cbn. rewrite Hsame.
    reflexivity.
  - reflexivity.
  - repeat split; try reflexivity. left. vm_compute. reflexivity.
  - repeat split; try reflexivity. right. vm_compute. reflexivity.
Defined.

(** A GET with no header at all, to a view with exploration enabled. *)
Lemma unmatched_accept_is_unsupported_witness :
  (Request.headers Examples.get_bare !! "accept" = None ->
   accept_header Examples.get_bare = "")
  /\ GraphQLView.should_render_graphiql
       (GraphQLView.graphiql Examples.view) Examples.get_bare = false
  /\ @GraphQLView.execute_request Examples.imports Examples.view
       Examples.get_bare
     = Ok
         (Response.mk
            (JObj
               [("Code", JStr "UnsupportedMediaType");
                ("Message", JStr "Unsupported Media Type")])
            ∅ 415).
Proof.
  apply (@unmatched_accept_is_unsupported Examples.imports Examples.view
           Examples.get_bare).
  - reflexivity.
  - reflexivity.
  - vm_compute. reflexivity.
  - reflexivity.
  - left. reflexivity.
Defined.

(** * Further properties of the view *)

(** ** The substring tests on the headers *)

Lemma append_String (a : Ascii.ascii) (s t : string) :
  String a s ++ t = String a (s ++ t).
Proof. reflexivity. Qed.

Lemma prefix_iff (needle haystack : string) :
  String.prefix needle haystack = true
  <-> exists post : string, haystack = needle ++ post.
Proof.
  revert haystack. induction needle as [ | a needle IH]; intros haystack.
  - split; [ intros _; exists haystack; reflexivity | intros _ ].
    destruct haystack; reflexivity.
  - destruct haystack as [ | b haystack]; cbn [String.prefix].
    + split; [ discriminate | intros (post & Hpost); discriminate Hpost ].
    + destruct (Ascii.ascii_dec a b) as [-> | Hne].
      * rewrite IH. split; intros (post & Hpost); exists post.
        -- rewrite append_String, Hpost. reflexivity.
        -- rewrite append_String in Hpost. congruence.
      * split; [ discriminate | intros (post & Hpost) ].
        rewrite append_String in Hpost. congruence.
Qed.

(** [str_in] is the substring test of Python's [in]: the haystack is some
    text, then the needle, then some text. *)
Lemma str_in_iff (needle haystack : string) :
  str_in needle haystack = true
  <-> exists pre post : string, haystack = pre ++ needle ++ post.
Proof.
  induction haystack as [ | b haystack IH]; cbn [str_in].
  - rewrite orb_false_r, prefix_iff. split.
    + intros (post & Hpost). exists "", post. exact Hpost.
    + intros (pre & post & Hpost). exists post.
      destruct pre; [ exact Hpost | discriminate Hpost ].
  - rewrite orb_true_iff, prefix_iff, IH. split.
    + intros [(post & Hpost) | (pre & post & Hpost)].
      * exists "", post. exact Hpost.
      * exists (String b pre), post. rewrite append_String, Hpost.
        reflexivity.
    + intros (pre & post & Hpost). destruct pre as [ | a pre].
      * left. exists post. exact Hpost.
      * right. exists pre, post. rewrite append_String in Hpost.
        congruence.
Qed.

(** X7: [should_render_graphiql] answers yes exactly when the flag is on and
    the [accept] header is present and holds [text/html] or [*/*] somewhere
    in its value, whatever stands before and after (other media types,
    quality parameters). *)
Theorem should_render_graphiql_iff (graphiql : bool) (request : Request.t) :
  GraphQLView.should_render_graphiql graphiql request = true
  <-> graphiql = true
      /\ exists value pre post : string,
           Request.headers request !! "accept" = Some value
           /\ (value = pre ++ "text/html" ++ post
               \/ value = pre ++ "*/*" ++ post).
Proof.
  rewrite should_render_graphiql_spec, andb_true_iff, orb_true_iff.
  rewrite !str_in_iff. unfold accept_header, Request.headers_get.
  split.
  - intros [Hflag Hvalue]. split; [ exact Hflag | ].
    destruct (Request.headers request !! "accept") as [value | ];
      cbn [default] in Hvalue.
    + destruct Hvalue as [(pre & post & Heq) | (pre & post & Heq)];
        exists value, pre, post; tauto.
    + destruct Hvalue as [(pre & post & Heq) | (pre & post & Heq)];
        destruct pre; discriminate Heq.
  - intros [Hflag (value & pre & post & Hheader & Hvalue)].
    split; [ exact Hflag | ]. rewrite Hheader. cbn [default].
    destruct Hvalue as [Heq | Heq]; [ left | right ]; exists pre, post;
      exact Heq.
Qed.

(** X8: line 98 takes a request for JSON exactly when its [content-type]
    header is present and holds [application/json] somewhere in its value:
    a charset or other parameter after it, or text before it, does not
    matter. *)
Theorem json_content_type_iff (request : Request.t) :
  has_json_content_type request = true
  <-> exists value pre post : string,
        Request.headers request !! "content-type" = Some value
        /\ value = pre ++ "application/json" ++ post.
Proof.
  unfold has_json_content_type, Request.headers_get. rewrite str_in_iff.
  split.
  - intros (pre & post & Heq).
    destruct (Request.headers request !! "content-type") as [value | ];
      cbn [default] in Heq.
    + exists value, pre, post. tauto.
    + destruct pre; discriminate Heq.
  - intros (value & pre & post & Hheader & Heq).
    rewrite Hheader. exists pre, post. exact Heq.
Qed.

(** ** Which requests get which answer *)

(** Every path of [execute_request], one goal each. *)
Ltac walk_paths :=
  unfold GraphQLView.select_data, GraphQLView.execute_data,
    has_json_content_type in *;
  repeat case_match; simplify_eq.

Section answers.
Context `{strawberry.lib}.

(** X1: status 405 is the answer to the requests whose method is neither
    GET nor POST, and to no other. *)
Theorem method_not_allowed_iff (self : GraphQLView.t)
    (request : Request.t) :
  (exists response : Response.t,
      GraphQLView.execute_request self request = Ok response
      /\ Response.status_code response = 405)
  <-> Request.method request <> "GET" /\ Request.method request <> "POST".
Proof.
  split.
  - intros (response & Hrun & Hstatus).
    destruct (bool_decide
                (Request.method request ∈ GraphQLView.allowed_methods))
      eqn:Hallowed.
    + apply bool_decide_eq_true in Hallowed.
      rewrite execute_request_allowed in Hrun by exact Hallowed.
      walk_paths; discriminate Hstatus.
    + apply bool_decide_eq_false in Hallowed.
      rewrite allowed_method_iff in Hallowed. tauto.
  - intros [Hget Hpost]. eexists. split.
    + unfold GraphQLView.execute_request.
      rewrite (allowed_method_false _ Hget Hpost). reflexivity.
    + reflexivity.
Qed.

(** X2: status 415 is the answer exactly to the GET and POST requests
    without a JSON content type that are neither a GET with query
    parameters nor a GET that gets the exploration page. *)
Theorem unsupported_media_type_iff (self : GraphQLView.t)
    (request : Request.t) :
  (exists response : Response.t,
      GraphQLView.execute_request self request = Ok response
      /\ Response.status_code response = 415)
  <-> has_json_content_type request = false
      /\ (Request.method request = "POST"
          \/ (Request.method request = "GET"
              /\ truthy (Request.query_params request) = false
              /\ GraphQLView.should_render_graphiql
                   (GraphQLView.graphiql self) request = false)).
Proof.
  split.
  - intros (response & Hrun & Hstatus).
    destruct (bool_decide
                (Request.method request ∈ GraphQLView.allowed_methods))
      eqn:Hallowed.
    + apply bool_decide_eq_true, allowed_method_iff in Hallowed.
      rewrite execute_request_allowed in Hrun
        by (apply allowed_method_iff; exact Hallowed).
      walk_paths; try discriminate Hstatus.
      split; [ reflexivity | ].
      destruct Hallowed as [Hpost | Hget]; [ left; exact Hpost | right ].
      rewrite Hget in *. cbn in *. tauto.
    + rewrite execute_request_refused in Hrun by exact Hallowed.
      simplify_eq; try discriminate Hstatus.
  - intros [Hjson Hmethod].
    exists (GraphQLView.error_response "Unsupported Media Type"
              "UnsupportedMediaType" 415 None).
    split; [ | reflexivity ].
    rewrite execute_request_allowed
      by (apply allowed_method_iff; tauto).
    destruct Hmethod as [Hpost | (Hget & Hparams & Hrender)].
    + rewrite select_data_no_source;
        [ | exact Hjson | rewrite Hpost; reflexivity ].
      rewrite Hpost. reflexivity.
    + rewrite select_data_no_source;
        [ | exact Hjson | rewrite Hparams; apply andb_false_r ].
      rewrite Hrender, andb_false_r. reflexivity.
Qed.

(** X3: a POST whose content type is not JSON is answered with status 415
    and code [UnsupportedMediaType] whatever its query parameters, its
    [accept] header and the exploration flag are: a POST is never served
    from its query string and never gets the page. *)
Theorem post_without_json_is_unsupported (self : GraphQLView.t)
    (request : Request.t) :
  Request.method request = "POST" ->
  has_json_content_type request = false ->
  GraphQLView.execute_request self request
  = Ok
      (Response.mk
         (JObj
            [("Code", JStr "UnsupportedMediaType");
             ("Message", JStr "Unsupported Media Type")])
         ∅ 415).
Proof.
  intros Hpost Hjson.
  rewrite execute_request_allowed by (apply allowed_method_iff; tauto).
  rewrite select_data_no_source;
    [ | exact Hjson | rewrite Hpost; reflexivity ].
  rewrite Hpost. reflexivity.
Qed.

(** X4: a response carries the content type [text/html] only when the
    request is a GET without JSON content type and without query
    parameters for which [should_render_graphiql] says yes, and every such
    request gets one: the page goes to no POST, to no request that names a
    data source, and to nobody when exploration is disabled. *)
Theorem exploration_page_iff (self : GraphQLView.t) (request : Request.t) :
  (exists response : Response.t,
      GraphQLView.execute_request self request = Ok response
      /\ Response.headers response !! "content-type" = Some "text/html")
  <-> Request.method request = "GET"
      /\ has_json_content_type request = false
      /\ truthy (Request.query_params request) = false
      /\ GraphQLView.should_render_graphiql (GraphQLView.graphiql self)
           request = true.
Proof.
  split.
  - intros (response & Hrun & Hheader).
    destruct (bool_decide
                (Request.method request ∈ GraphQLView.allowed_methods))
      eqn:Hallowed.
    + apply bool_decide_eq_true in Hallowed.
      rewrite execute_request_allowed in Hrun by exact Hallowed.
      walk_paths; try (vm_compute in Hheader; discriminate Hheader).
      match goal with
      | Hboth : (Request.method request =? "GET")%string && _ = true
        |- _ => apply andb_prop in Hboth; destruct Hboth as [Hget Hrender]
      end.
      rewrite Hget in *. apply String.eqb_eq in Hget.
      cbn [andb] in *. tauto.
    + rewrite execute_request_refused in Hrun by exact Hallowed.
      simplify_eq; try discriminate Hheader.
  - intros (Hget & Hjson & Hparams & Hrender). eexists. split.
    + rewrite execute_request_allowed
        by (apply allowed_method_iff; tauto).
      rewrite select_data_no_source;
        [ | exact Hjson | rewrite Hparams; apply andb_false_r ].
      rewrite Hget, Hrender. reflexivity.
    + reflexivity.
Qed.

(** X5: status 400 has two causes and no other: a JSON content type with a
    body that does not parse or is not an object, or a data source in which
    [parse_request_data] misses the query. *)
Theorem bad_request_iff (self : GraphQLView.t) (request : Request.t) :
  (exists response : Response.t,
      GraphQLView.execute_request self request = Ok response
      /\ Response.status_code response = 400)
  <-> (Request.method request = "GET" \/ Request.method request = "POST")
      /\ ((has_json_content_type request = true
           /\ (Request.json_body request = Raise BadRequestError
               \/ exists value : json,
                    Request.json_body request = Ok value
                    /\ as_dict value = None))
          \/ exists data : dict,
               GraphQLView.select_data self request = Continue data
               /\ strawberry.parse_request_data data
                  = Raise MissingQueryError).
Proof.
  split.
  - intros (response & Hrun & Hstatus).
    destruct (bool_decide
                (Request.method request ∈ GraphQLView.allowed_methods))
      eqn:Hallowed.
    + apply bool_decide_eq_true in Hallowed.
      split; [ apply allowed_method_iff in Hallowed; tauto | ].
      rewrite execute_request_allowed in Hrun by exact Hallowed.
      destruct (GraphQLView.select_data self request)
        as [data | returned | e] eqn:Hsel; [ | | discriminate Hrun ].
      * right. exists data. split; [ reflexivity | ].
        unfold GraphQLView.execute_data in Hrun.
        repeat case_match; simplify_eq; try discriminate Hstatus.
        reflexivity.
      * left. simplify_eq. walk_paths; try discriminate Hstatus; eauto.
    + rewrite execute_request_refused in Hrun by exact Hallowed.
      simplify_eq; try discriminate Hstatus.
  - intros [Hmethod Hcause].
    rewrite execute_request_allowed
      by (apply allowed_method_iff; tauto).
    destruct Hcause as [[Hjson Hbody] | (data & Hsel & Hraise)].
    + unfold GraphQLView.select_data.
      unfold has_json_content_type in Hjson. rewrite Hjson.
      destruct Hbody as [Hraise | (value & Hvalue & Hdict)].
      * rewrite Hraise. eexists. split; reflexivity.
      * rewrite Hvalue, Hdict. eexists. split; reflexivity.
    + rewrite Hsel, execute_data_missing_query by exact Hraise.
      eexists. split; reflexivity.
Qed.


(** X9: building the view with [render_graphiql=False] changes the answer
    to exactly the requests that would get the page, which get status 415
    instead; every other request is answered as before. *)
Theorem disabling_exploration (schema : BaseSchema) (encoder : JSONEncoder)
    (params : JSONDumpsParams) (request : Request.t) :
  GraphQLView.execute_request
    (GraphQLView.mk false schema encoder params) request
  = if serves_exploration_page
         (GraphQLView.mk true schema encoder params) request
    then
      Ok
        (GraphQLView.error_response "Unsupported Media Type"
           "UnsupportedMediaType" 415 None)
    else
      GraphQLView.execute_request
        (GraphQLView.mk true schema encoder params) request.
Proof.
  unfold serves_exploration_page.
  destruct (bool_decide
              (Request.method request ∈ GraphQLView.allowed_methods))
    eqn:Hallowed.
  - apply bool_decide_eq_true in Hallowed.
    rewrite !execute_request_allowed by exact Hallowed.
    unfold GraphQLView.select_data. fold (has_json_content_type request).
    cbn [GraphQLView.graphiql andb].
    rewrite !should_render_graphiql_spec. cbn [andb].
    destruct (has_json_content_type request); [ reflexivity | ].
    destruct ((Request.method request =? "GET")%string
              && truthy (Request.query_params request));
      [ reflexivity | ].
    cbn [negb andb]. rewrite andb_false_r.
    destruct ((Request.method request =? "GET")%string); [ | reflexivity ].
    cbn [andb].
    destruct (str_in "text/html" (accept_header request)
              || str_in "*/*" (accept_header request)); reflexivity.
  - rewrite !execute_request_refused by exact Hallowed. reflexivity.
Qed.

(** X10: an answer that is a refusal (a status other than 200) or the page
    does not depend on the engine, the encoder or the encoder's parameters:
    a view with the same exploration flag gives the same answer. *)
Theorem refusals_ignore_the_engine (self other : GraphQLView.t)
    (request : Request.t) (response : Response.t) :
  GraphQLView.graphiql self = GraphQLView.graphiql other ->
  GraphQLView.execute_request self request = Ok response ->
  Response.status_code response <> 200
  \/ Response.headers response !! "content-type" = Some "text/html" ->
  GraphQLView.execute_request other request = Ok response.
Proof.
  intros Hflag Hrun Hkind.
  destruct (bool_decide
              (Request.method request ∈ GraphQLView.allowed_methods))
    eqn:Hallowed.
  - apply bool_decide_eq_true in Hallowed.
    rewrite execute_request_allowed in Hrun |- * by exact Hallowed.
    assert (GraphQLView.select_data other request
            = GraphQLView.select_data self request) as ->.
    { unfold GraphQLView.select_data. rewrite Hflag. reflexivity. }
    destruct (GraphQLView.select_data self request)
      as [data | returned | e]; [ | exact Hrun | exact Hrun ].
    unfold GraphQLView.execute_data in Hrun |- *.
    destruct (strawberry.parse_request_data data) as [request_data | e];
      [ | exact Hrun ].
    exfalso. repeat case_match; simplify_eq.
    destruct Hkind as [Hstatus | Hheader];
      [ apply Hstatus; reflexivity | discriminate Hheader ].
  - rewrite execute_request_refused in Hrun |- * by exact Hallowed.
    exact Hrun.
Qed.

(** X14: the encoded result of the engine, with status 200 and no header of
    the view's own, is the answer exactly when the method is GET or POST,
    the classifier names a data source, [parse_request_data] reads an
    operation from it, and the engine, [process_result] and the encoder
    each return; the body is then the text the encoder returned. *)
Theorem executed_iff (self : GraphQLView.t) (request : Request.t)
    (text : string) :
  GraphQLView.execute_request self request
  = Ok (Response.mk (JStr text) ∅ 200)
  <-> (Request.method request = "GET" \/ Request.method request = "POST")
      /\ exists (data : dict) (request_data : GraphQLRequestData)
                (result : ExecutionResult) (http_result : json),
           GraphQLView.select_data self request = Continue data
           /\ strawberry.parse_request_data data = Ok request_data
           /\ execute_sync (GraphQLView._schema self) (query request_data)
                (variables request_data) request
                (operation_name request_data) JNull = Ok result
           /\ strawberry.process_result result = Ok http_result
           /\ GraphQLView.json_encoder self
                (GraphQLView.json_dumps_params self) http_result
              = Ok text.
Proof.
  split.
  - intros Hrun.
    destruct (bool_decide
                (Request.method request ∈ GraphQLView.allowed_methods))
      eqn:Hallowed.
    + apply bool_decide_eq_true in Hallowed.
      split; [ apply allowed_method_iff in Hallowed; tauto | ].
      rewrite execute_request_allowed in Hrun by exact Hallowed.
      destruct (GraphQLView.select_data self request)
        as [data | returned | e] eqn:Hsel; [ | | discriminate Hrun ].
      * exists data.
        unfold GraphQLView.execute_data, GraphQLView.process_result in Hrun.
        destruct (strawberry.parse_request_data data)
          as [request_data | e];
          [ | destruct e; discriminate Hrun ].
        exists request_data.
        destruct (execute_sync _ _ _ _ _ _) as [result | e] eqn:Hresult;
          [ | discriminate Hrun ].
        exists result.
        destruct (strawberry.process_result result) as [http_result | e]
          eqn:Hprocessed; [ | discriminate Hrun ].
        exists http_result.
        destruct (GraphQLView.json_encoder _ _ _) as [encoded | e]
          eqn:Hencoded; [ | discriminate Hrun ].
        injection Hrun as ->. tauto.
      * injection Hrun as ->. exfalso. walk_paths.
    + rewrite execute_request_refused in Hrun by exact Hallowed.
      discriminate Hrun.
  - intros (Hmethod & data & request_data & result & http_result
            & Hsel & Hparsed & Hresult & Hprocessed & Hencoded).
    rewrite execute_request_allowed, Hsel
      by (apply allowed_method_iff; tauto).
    unfold GraphQLView.execute_data, GraphQLView.process_result.
    rewrite Hparsed, Hresult, Hprocessed, Hencoded. reflexivity.
Qed.

End answers.

(** * Properties of the exception hook *)

Lemma lower_upper_ascii (c : Ascii.ascii) :
  exceptions.lower_ascii (exceptions.upper_ascii c)
  = exceptions.lower_ascii c.
Proof. destruct c as [[] [] [] [] [] [] [] []]; reflexivity. Qed.

Lemma lower_lower_ascii (c : Ascii.ascii) :
  exceptions.lower_ascii (exceptions.lower_ascii c)
  = exceptions.lower_ascii c.
Proof. destruct c as [[] [] [] [] [] [] [] []]; reflexivity. Qed.

Lemma lower_upper (s : string) :
  exceptions.lower (exceptions.upper s) = exceptions.lower s.
Proof.
  induction s as [ | c s IH]; [ reflexivity | ].
  cbn [exceptions.lower exceptions.upper].
  rewrite lower_upper_ascii, IH. reflexivity.
Qed.

Lemma lower_lower (s : string) :
  exceptions.lower (exceptions.lower s) = exceptions.lower s.
Proof.
  induction s as [ | c s IH]; [ reflexivity | ].
  cbn [exceptions.lower]. rewrite lower_lower_ascii, IH. reflexivity.
Qed.

(** The answer of [_should_use_rich_exceptions] when the variable is set. *)
Lemma should_use_rich_exceptions_set (environ : gmap string string)
    (value : string) :
  exceptions._should_use_rich_exceptions
    (<[ "STRAWBERRY_DISABLE_RICH_ERRORS" := value ]> environ)
  = negb (bool_decide (exceptions.lower value ∈ ["true"; "1"; "yes"])).
Proof.
  unfold exceptions._should_use_rich_exceptions.
  rewrite lookup_insert_eq. reflexivity.
Qed.

(** X11: rich errors are in use unless the environment sets
    [STRAWBERRY_DISABLE_RICH_ERRORS] to [true], [1] or [yes]; the value is
    compared whole and without regard to letter case, so that writing it in
    upper or in lower case changes nothing, and an unset or empty variable
    disables nothing. *)
Theorem rich_errors_setting (environ : gmap string string) :
  (environ !! "STRAWBERRY_DISABLE_RICH_ERRORS" = None ->
   exceptions._should_use_rich_exceptions environ = true)
  /\ (exceptions._should_use_rich_exceptions environ = false
      <-> exists value : string,
            environ !! "STRAWBERRY_DISABLE_RICH_ERRORS" = Some value
            /\ (exceptions.lower value = "true"
                \/ exceptions.lower value = "1"
                \/ exceptions.lower value = "yes"))
  /\ (forall value : string,
        exceptions._should_use_rich_exceptions
          (<[ "STRAWBERRY_DISABLE_RICH_ERRORS" := exceptions.upper value ]>
             environ)
        = exceptions._should_use_rich_exceptions
            (<[ "STRAWBERRY_DISABLE_RICH_ERRORS" := value ]> environ)
        /\ exceptions._should_use_rich_exceptions
             (<[ "STRAWBERRY_DISABLE_RICH_ERRORS" := exceptions.lower value ]>
                environ)
           = exceptions._should_use_rich_exceptions
               (<[ "STRAWBERRY_DISABLE_RICH_ERRORS" := value ]> environ)).
Proof.
  split; [ | split ].
  - intros Hunset. unfold exceptions._should_use_rich_exceptions.
    rewrite Hunset. reflexivity.
  - unfold exceptions._should_use_rich_exceptions.
    rewrite negb_false_iff, bool_decide_eq_true.
    rewrite !elem_of_cons, elem_of_nil. split.
    + intros Hin.
      destruct (environ !! "STRAWBERRY_DISABLE_RICH_ERRORS") as [value | ].
      * exists value. cbn [default] in Hin. tauto.
      * cbn in Hin. destruct Hin as [Hin | [Hin | [Hin | []]]];
          discriminate Hin.
    + intros (value & Hset & Hvalue). rewrite Hset. cbn [default]. tauto.
  - intros value. rewrite !should_use_rich_exceptions_set.
    rewrite lower_upper, lower_lower. split; reflexivity.
Qed.

(** X12: an exception of a class that [exceptions/__init__.py] defines is
    never printed by [rich]: those classes derive from [Exception], not
    from [StrawberryException], so the hook hands them to the original
    hook whatever the environment says and whether or not [rich] is
    installed. *)
Theorem local_exceptions_use_the_original_hook
    (imported : exceptions.class -> list exceptions.class)
    (exception_type : exceptions.class) (environ : gmap string string)
    (rich_installed : bool) :
  exceptions.defined_in_init exception_type = true ->
  exceptions.issubclass imported exception_type
    exceptions.StrawberryException = false
  /\ exceptions.exception_handler imported exception_type environ
       rich_installed
     = exceptions.original_exception_hook.
Proof.
  intros Hlocal.
  assert (exceptions.issubclass imported exception_type
            exceptions.StrawberryException = false) as Hnot.
  { destruct exception_type; try discriminate Hlocal; reflexivity. }
  split; [ exact Hnot | ].
  unfold exceptions.exception_handler, exceptions._get_handler.
  rewrite Hnot. reflexivity.
Qed.

(** X13: an [InvalidFieldArgumentError], which derives from
    [StrawberryException], is printed by [rich] exactly when [rich] is
    installed and the environment does not disable it; otherwise it goes to
    the original hook. *)
Theorem invalid_field_argument_is_rich_printed_iff
    (imported : exceptions.class -> list exceptions.class)
    (environ : gmap string string) (rich_installed : bool) :
  exceptions.exception_handler imported
    exceptions.InvalidFieldArgumentError environ rich_installed
  = exceptions.rich_print
  <-> rich_installed = true
      /\ exceptions._should_use_rich_exceptions environ = true.
Proof.
  assert (exceptions.issubclass imported
            exceptions.InvalidFieldArgumentError
            exceptions.StrawberryException = true) as Hsub.
  { unfold exceptions.issubclass.
    cbn [exceptions.issubclass_upto exceptions.bases existsb].
    rewrite (bool_decide_eq_true_2
               (exceptions.StrawberryException
                = exceptions.StrawberryException)) by reflexivity.
    cbn [orb]. rewrite !orb_true_r. reflexivity. }
  unfold exceptions.exception_handler, exceptions._get_handler.
  rewrite Hsub. cbn [andb].
  destruct (exceptions._should_use_rich_exceptions environ),
    rich_installed; intuition congruence.
Qed.

(** * Properties of the exception messages *)

Lemma str_le_trans (a b c : string) :
  exceptions.str_le a b -> exceptions.str_le b c -> exceptions.str_le a c.
Proof.
  unfold exceptions.str_le, String.leb. revert b c.
  induction a as [ | x a IH]; intros [ | y b] [ | z c];
    cbn [String.compare]; try (intros; reflexivity || discriminate).
  unfold Ascii.compare.
  destruct (N.compare_spec (Ascii.N_of_ascii x) (Ascii.N_of_ascii y))
    as [Hxy | Hxy | Hxy];
    destruct (N.compare_spec (Ascii.N_of_ascii y) (Ascii.N_of_ascii z))
      as [Hyz | Hyz | Hyz];
    try (intros; discriminate).
  - rewrite Hxy, Hyz, N.compare_refl. apply IH.
  - intros _ _. rewrite Hxy, (proj2 (N.compare_lt_iff _ _) Hyz).
    reflexivity.
  - intros _ _. rewrite <- Hyz, (proj2 (N.compare_lt_iff _ _) Hxy).
    reflexivity.
  - intros _ _.
    rewrite (proj2 (N.compare_lt_iff _ _) (N.lt_trans _ _ _ Hxy Hyz)).
    reflexivity.
Qed.

#[global] Instance str_le_transitive : Transitive exceptions.str_le.
Proof. intros a b c. apply str_le_trans. Qed.

#[global] Instance str_le_antisymmetric : AntiSymm (=) exceptions.str_le.
Proof. intros a b. apply String.leb_antisym. Qed.

#[global] Instance str_le_total : Total exceptions.str_le.
Proof. intros a b. apply String.leb_total. Qed.



(** * The further properties at sample inputs *)

(** The POST of a form is refused, query string and [accept] header
    notwithstanding. *)
Lemma post_without_json_is_unsupported_witness :
  @GraphQLView.execute_request Examples.imports Examples.view
    Examples.post_form
  = Ok
      (Response.mk
         (JObj
            [("Code", JStr "UnsupportedMediaType");
             ("Message", JStr "Unsupported Media Type")])
         ∅ 415).
Proof.
  apply (@post_without_json_is_unsupported Examples.imports Examples.view
           Examples.post_form).
  - reflexivity.
  - vm_compute. reflexivity.
Defined.

(** The POST without a query gets its 400 from a view with another engine
    and another encoder too. *)
Lemma refusals_ignore_the_engine_witness :
  @GraphQLView.execute_request Examples.imports
    (GraphQLView.init Examples.raising_encoder Examples.echo_schema None
       None (Some [("indent", JNum 2)]))
    Examples.post_without_query
  = Ok
      (GraphQLView.error_response "No GraphQL query found in the request"
         "BadRequestError" 400 None).
Proof.
  apply (@refusals_ignore_the_engine Examples.imports Examples.view).
  - reflexivity.
  - vm_compute. reflexivity.
  - left. discriminate.
Defined.

(** A [MissingQueryError] goes to the original hook, with [rich] installed
    and nothing disabled. *)
Lemma local_exceptions_use_the_original_hook_witness :
  exceptions.issubclass (fun _ => [exceptions.Exception])
    exceptions.MissingQueryError exceptions.StrawberryException = false
  /\ exceptions.exception_handler (fun _ => [exceptions.Exception])
       exceptions.MissingQueryError ∅ true
     = exceptions.original_exception_hook.
Proof.
  apply (local_exceptions_use_the_original_hook
           (fun _ => [exceptions.Exception]) exceptions.MissingQueryError
           ∅ true).
  reflexivity.
Defined.

